(** * Grades: the grading core of [main.py]

    A shallow embedding of the score-handling code of the [MainApp] window
    class: [submitScores], [calculateGrade], [saveResults],
    [modifyCsvFile], [clearFields] and [addInputBoxes], together with the
    Python built-ins they call.

    - Python [int] values are [Z]. [int] on a text follows the interpreter,
      its limit of [int_max_str_digits] digits included.
    - A [str] is a [string]; the character [ascii] of code [n] stands for the
      code point U+00nn, so the texts covered are those of Latin-1. The
      properties hold of these texts; the digits of other scripts are
      outside them.
    - An exception is a value of [exception], a [ValueError]; code that may
      raise one returns a [result].
    - The window is the record [MainApp]: the widgets' texts and the files
      the two writers append to. The faults of the file system are not
      modelled: opening and writing a file succeed, and [Return] is the
      run in which they do. *)

From Stdlib Require Import ZArith NArith List String Ascii Bool Lia DecimalString
  DecimalPos.
Import ListNotations.

Local Open Scope string_scope.
Local Open Scope Z_scope.

(** ** Python built-ins *)

Module Py.

(** The argument of a [ValueError], by the place that raises it. *)
Inductive value_error : Type :=
| InvalidLiteral (text : string)   (* int(text) on a text that is no integer literal *)
| DigitLimit (digits : nat)        (* int(text) on more digits than the limit *)
| Message (msg : string)           (* raise ValueError(msg) *)
| EmptySequence.                   (* max([]) *)

Inductive exception : Type :=
| ValueError (arg : value_error).

Inductive result (A : Type) : Type :=
| Return (a : A)
| Raise (e : exception).

Arguments Return {A} a.
Arguments Raise {A} e.

Definition bind {A B : Type} (r : result A) (k : A -> result B) : result B :=
  match r with
  | Return a => k a
  | Raise e => Raise e
  end.

Notation "x <- r ;; k" := (bind r (fun x => k))
  (at level 61, r at next level, right associativity).

(** [[f(x) for x in l]]: elements are evaluated left to right and the first
    exception ends the evaluation. *)
Fixpoint comprehension {A B : Type} (f : A -> result B) (l : list A)
  : result (list B) :=
  match l with
  | [] => Return []
  | x :: l' =>
      y <- f x ;;
      ys <- comprehension f l' ;;
      Return (y :: ys)
  end.

Definition ord (c : ascii) : N := N_of_ascii c.

(** [Py_ISSPACE]: the ASCII white space of the C parser. *)
Definition Py_ISSPACE (c : ascii) : bool :=
  ((9 <=? ord c) && (ord c <=? 13) || (ord c =? 32))%N.

(** [Py_UNICODE_ISSPACE] on U+0000..U+00FF. *)
Definition Py_UNICODE_ISSPACE (c : ascii) : bool :=
  ((9 <=? ord c) && (ord c <=? 13) || (28 <=? ord c) && (ord c <=? 31)
   || (ord c =? 32) || (ord c =? 133) || (ord c =? 160))%N.

(** [Py_ISDIGIT]: the ASCII digits '0'..'9'. *)
Definition Py_ISDIGIT (c : ascii) : bool :=
  ((48 <=? ord c) && (ord c <=? 57))%N.

(** [Py_UNICODE_TODECIMAL] on U+0000..U+00FF: only '0'..'9' are decimal. *)
Definition Py_UNICODE_TODECIMAL (c : ascii) : option N :=
  if Py_ISDIGIT c then Some (ord c - 48)%N else None.

(** [Py_UNICODE_ISDIGIT] on U+0000..U+00FF: the decimal characters and the
    superscripts U+00B2, U+00B3 and U+00B9. *)
Definition Py_UNICODE_ISDIGIT (c : ascii) : bool :=
  match Py_UNICODE_TODECIMAL c with
  | Some _ => true
  | None => ((ord c =? 178) || (ord c =? 179) || (ord c =? 185))%N
  end.

Fixpoint all_chars (p : ascii -> bool) (s : string) : bool :=
  match s with
  | EmptyString => true
  | String c s' => p c && all_chars p s'
  end.

(** [str.isdigit()]: at least one character, and all of them digits. *)
Definition isdigit (s : string) : bool :=
  match s with
  | EmptyString => false
  | String _ _ => all_chars Py_UNICODE_ISDIGIT s
  end.

(** [_PyUnicode_TransformDecimalAndSpaceToASCII]: an ASCII text is returned
    as it is; otherwise white space becomes a blank, a decimal character its
    ASCII digit, and the text is cut after the first other character, which
    is replaced by '?'. *)
Fixpoint transform_chars (s : string) : string :=
  match s with
  | EmptyString => EmptyString
  | String ch rest =>
      if (ord ch <? 127)%N then String ch (transform_chars rest)
      else if Py_UNICODE_ISSPACE ch then String " " (transform_chars rest)
      else match Py_UNICODE_TODECIMAL ch with
           | Some d => String (ascii_of_N (48 + d)) (transform_chars rest)
           | None => String "?" EmptyString
           end
  end.

Definition TransformDecimalAndSpaceToASCII (s : string) : string :=
  if all_chars (fun ch => (ord ch <? 128)%N) s then s else transform_chars s.

Fixpoint skip_spaces (s : string) : string :=
  match s with
  | EmptyString => EmptyString
  | String c s' => if Py_ISSPACE c then skip_spaces s' else s
  end.

(** [_PyLong_DigitValue[c] < 10]. *)
Definition digit_value (c : ascii) : option Z :=
  if Py_ISDIGIT c then Some (Z.of_N (ord c) - 48) else None.

(** The digit loop of [PyLong_FromString] in base 10. [prev] is the previous
    character, [acc] the value read, [digits] the number of digits read. Two
    underscores in a row and an underscore at the end are errors; the loop
    stops at the first character that is neither a digit nor an underscore
    and returns the rest of the text. *)
Fixpoint scan_digits (prev : ascii) (acc : Z) (digits : nat) (s : string)
  : option (Z * nat * string) :=
  match s with
  | EmptyString => if (prev =? "_")%char then None else Some (acc, digits, s)
  | String c rest =>
      if (c =? "_")%char then
        if (prev =? "_")%char then None else scan_digits c acc digits rest
      else
        match digit_value c with
        | Some d => scan_digits c (10 * acc + d) (S digits) rest
        | None => if (prev =? "_")%char then None else Some (acc, digits, s)
        end
  end.

(** [sys.get_int_max_str_digits()], at its default: the greatest number of
    digits [int] reads from a text and [str] writes. *)
Definition int_max_str_digits : nat := 4300.

(** What [PyLong_FromString] finds in a text. *)
Inductive long_literal : Type :=
| Parsed (z : Z)
| NotALiteral                (* the text is no integer literal *)
| OverLimit (digits : nat).  (* the literal has more digits than the limit *)

(** [PyLong_FromString(s, &end, 10)] followed by the test that [end] is the
    end of the text: white space, an optional sign, digits with single
    underscores between them, white space. The digits are counted, leading
    zeros included, and refused above the limit before what follows them
    is looked at. *)
Definition PyLong_FromString (s : string) : long_literal :=
  let s := skip_spaces s in
  let '(sign, s) :=
    match s with
    | String "+" r => (1, r)
    | String "-" r => (-1, r)
    | _ => (1, s)
    end in
  match s with
  | String "_" _ => NotALiteral
  | _ =>
      match scan_digits zero 0 0 s with
      | None => NotALiteral
      | Some (v, digits, rest) =>
          if (int_max_str_digits <? digits)%nat then OverLimit digits
          else if (digits =? 0)%nat then NotALiteral
          else match skip_spaces rest with
               | EmptyString => Parsed (sign * v)
               | String _ _ => NotALiteral
               end
      end
  end.

(** [int(s)] for a [str]. *)
Definition int_ (s : string) : result Z :=
  match PyLong_FromString (TransformDecimalAndSpaceToASCII s) with
  | Parsed z => Return z
  | NotALiteral => Raise (ValueError (InvalidLiteral s))
  | OverLimit digits => Raise (ValueError (DigitLimit digits))
  end.

(** [str(z)] for an [int]. Python refuses to write an [int] of more than
    [int_max_str_digits] digits; [str] is meant for the others. *)
Definition str (z : Z) : string := NilZero.string_of_int (Z.to_int z).

(** [len(l)]. *)
Definition len {A : Type} (l : list A) : Z := Z.of_nat (List.length l).

(** [[x] * n]: the empty list when [n] is not positive. *)
Definition list_mul {A : Type} (x : A) (n : Z) : list A := repeat x (Z.to_nat n).

(** [max(l)]: the first of the greatest elements; [ValueError] on []. *)
Definition max_ (l : list Z) : result Z :=
  match l with
  | [] => Raise (ValueError EmptySequence)
  | x :: l' => Return (fold_left (fun m y => if y >? m then y else m) l' x)
  end.

(** [sep.join(l)]. *)
Definition join (sep : string) (l : list string) : string := String.concat sep l.

(** Truth value of a [str] or a list: false exactly when empty. *)
Definition truthy_str (s : string) : bool :=
  match s with EmptyString => false | String _ _ => true end.

Definition truthy_list {A : Type} (l : list A) : bool :=
  match l with [] => false | _ :: _ => true end.

End Py.

Import Py.

Definition TAB : string := String (ascii_of_nat 9) EmptyString.
Definition NEWLINE : string := String (ascii_of_nat 10) EmptyString.

(** ** The window *)

(** The state [MainApp] works on: the text of the name field, the text of
    each score field ([self.score_inputs], in order), the text of the message
    label, and the files on disk ([None]: no such file). Opening and writing
    a file always succeed. *)
Record MainApp : Type := {
  lineEditStudentName : string;
  score_inputs : list string;
  labelMessage : string;
  files : string -> option string
}.

(** [self.ui.labelMessage.setText(text)]. *)
Definition setText (self : MainApp) (text : string) : MainApp :=
  {| lineEditStudentName := lineEditStudentName self;
     score_inputs := score_inputs self;
     labelMessage := text;
     files := files self |}.

Definition content (f : option string) : string :=
  match f with
  | Some text => text
  | None => EmptyString
  end.

(** [with open(path, "a") as file: file.write(text)]: the file is created
    when absent and [text] is added at its end. *)
Definition append_file (self : MainApp) (path text : string) : MainApp :=
  {| lineEditStudentName := lineEditStudentName self;
     score_inputs := score_inputs self;
     labelMessage := labelMessage self;
     files := fun p => if (p =? path)%string
                       then Some (content (files self path) ++ text)
                       else files self p |}.

(** ** [calculateGrade] *)

Definition calculateGrade (score : Z) : string :=
  if score >=? 90 then "A"
  else if score >=? 80 then "B"
  else if score >=? 70 then "C"
  else if score >=? 60 then "D"
  else "F".

(** ** [saveResults] *)

(** [scores += [0] * (4 - len(scores))], in [saveResults] and in
    [modifyCsvFile]. *)
Definition pad_scores (scores : list Z) : list Z :=
  (scores ++ list_mul 0 (4 - len scores))%list.

Definition saveResults (self : MainApp) (name : string) (scores : list Z)
    (final_score : Z) : MainApp :=
  let scores := pad_scores scores in
  let scores_str := join TAB (map str scores) in
  append_file self "grades.txt"
    (name ++ TAB ++ scores_str ++ TAB ++ str final_score ++ NEWLINE).

(** ** [submitScores] *)

(** The body of the [try] before [scores.append(score)]. *)
Definition parse_score (score_text : string) : result Z :=
  score <- int_ score_text ;;
  if (score <? 1) || (score >? 100)
  then Raise (ValueError (Message "Score must be between 1 and 100"))
  else Return score.

(** The [for] loop over [enumerate(self.score_inputs)]: [i] is the index of
    the first field of [inputs] and [scores] the list built so far. The
    result is [inl i] when the [except ValueError] branch is taken at index
    [i] (the function then returns), and [inr scores] when the loop ends. *)
Fixpoint submitScores_loop (i : nat) (inputs : list string) (scores : list Z)
  : nat + list Z :=
  match inputs with
  | [] => inr scores
  | score_text :: inputs' =>
      if truthy_str score_text then
        match parse_score score_text with
        | Return score => submitScores_loop (S i) inputs' (scores ++ [score])%list
        | Raise (ValueError _) => inl i
        end
      else submitScores_loop (S i) inputs' (scores ++ [0])%list
  end.

Definition invalid_input_message (i : nat) : string :=
  "Invalid input for Score " ++ str (Z.of_nat i + 1)
  ++ ". Please enter a number between 1 and 100.".

(** [max(scores) if scores else 0]. *)
Definition final_score_of (scores : list Z) : result Z :=
  if truthy_list scores then max_ scores else Return 0.

Definition submitScores (self : MainApp) : result MainApp :=
  let student_name := lineEditStudentName self in
  match submitScores_loop 0 (score_inputs self) [] with
  | inl i => Return (setText self (invalid_input_message i))
  | inr scores =>
      final_score <- final_score_of scores ;;
      let grade := calculateGrade final_score in
      let self := setText self (student_name ++ "'s grade: " ++ grade) in
      Return (saveResults self student_name scores final_score)
  end.

(** ** [modifyCsvFile] *)

(** [int(t) if t.isdigit() else 0], the element of the comprehension. *)
Definition csv_score (score_text : string) : result Z :=
  if isdigit score_text then int_ score_text else Return 0.

(** [file_name] is the path returned by the file dialog, empty when the
    dialog is cancelled. *)
Definition modifyCsvFile (file_name : string) (self : MainApp) : result MainApp :=
  if negb (truthy_str file_name) then Return self
  else
    let student_name := lineEditStudentName self in
    scores <- comprehension csv_score (score_inputs self) ;;
    let scores := pad_scores scores in
    final_score <- max_ scores ;;
    let scores_str := join "," (map str scores) in
    Return (append_file self file_name
              (student_name ++ "," ++ scores_str ++ "," ++ str final_score
               ++ NEWLINE)).

(** A fresh window with the given name and score texts, no message and an
    empty disk. *)
Definition window (name : string) (inputs : list string) : MainApp :=
  {| lineEditStudentName := name;
     score_inputs := inputs;
     labelMessage := EmptyString;
     files := fun _ => None |}.

(** ** Vocabulary of the properties *)

(** A score text the submit loop passes over without an error: an empty one,
    or one that [int] reads as a number from 1 to 100. *)
Definition accepted (score_text : string) : bool :=
  match score_text with
  | EmptyString => true
  | String _ _ =>
      match int_ score_text with
      | Return v => (1 <=? v) && (v <=? 100)
      | Raise _ => false
      end
  end.

(** The score an accepted text stands for. *)
Definition score_of (score_text : string) : Z :=
  match score_text with
  | EmptyString => 0
  | String _ _ =>
      match int_ score_text with
      | Return v => v
      | Raise _ => 0
      end
  end.

(** A non-empty text made of the characters '0' to '9' only. *)
Definition decimal_text (s : string) : bool :=
  truthy_str s && all_chars Py_ISDIGIT s.

(** A text within the limit of [int] on the number of digits. *)
Definition within_digit_limit (s : string) : Prop :=
  (String.length s <= int_max_str_digits)%nat.

(** The number a text of decimal digits denotes, most significant digit
    first. *)
Fixpoint decimal_number_from (acc : Z) (s : string) : Z :=
  match s with
  | EmptyString => acc
  | String c s' => decimal_number_from (10 * acc + (Z.of_N (ord c) - 48)) s'
  end.

Definition decimal_number (s : string) : Z := decimal_number_from 0 s.

(** The score the comma path takes for a text: its number when it is a
    decimal text, 0 otherwise. *)
Definition csv_value (score_text : string) : Z :=
  if decimal_text score_text then decimal_number score_text else 0.

(** The line [modifyCsvFile] writes for a name, the padded scores and the
    final score. *)
Definition csv_line (name : string) (scores : list Z) (final_score : Z) : string :=
  name ++ "," ++ join "," (map str scores) ++ "," ++ str final_score ++ NEWLINE.

(** The two reasons the specification gives a validation error. *)
Inductive rejection_reason : Type :=
| not_a_number
| out_of_range.

(** The superscript two, U+00B2. *)
Definition superscript_two : string := String (ascii_of_nat 178) EmptyString.

(** ** [clearFields] *)

(** The name field, every score field and the message label are emptied;
    the score fields themselves stay. *)
Definition clearFields (self : MainApp) : MainApp :=
  {| lineEditStudentName := EmptyString;
     score_inputs := map (fun _ => EmptyString) (score_inputs self);
     labelMessage := EmptyString;
     files := files self |}.

(** ** [addInputBoxes] *)

(** [attempts] is the value read from the spin box. The score fields there
    are removed and, for each [i] of [range(attempts)], a new field is
    added, whose text is empty. *)
Definition addInputBoxes (attempts : Z) (self : MainApp) : MainApp :=
  {| lineEditStudentName := lineEditStudentName self;
     score_inputs := map (fun _ => EmptyString) (seq 0 (Z.to_nat attempts));
     labelMessage := labelMessage self;
     files := files self |}.

(** The order of the grades, from F up to A. *)
Definition grade_rank (grade : string) : nat :=
  if (grade =? "A")%string then 4
  else if (grade =? "B")%string then 3
  else if (grade =? "C")%string then 2
  else if (grade =? "D")%string then 1
  else 0.

(** ** Lemmas on the built-ins *)

Ltac zbool :=
  repeat match goal with
  | H : (_ >=? _) = true |- _ => apply Z.geb_le in H
  | H : (_ >=? _) = false |- _ => rewrite Z.geb_leb in H; apply Z.leb_gt in H
  | H : (_ >? _) = true |- _ => apply Z.gtb_lt in H
  | H : (_ >? _) = false |- _ => rewrite Z.gtb_ltb in H; apply Z.ltb_ge in H
  | H : (_ <=? _) = true |- _ => apply Z.leb_le in H
  | H : (_ <=? _) = false |- _ => apply Z.leb_gt in H
  | H : (_ <? _) = true |- _ => apply Z.ltb_lt in H
  | H : (_ <? _) = false |- _ => apply Z.ltb_ge in H
  | H : (_ && _) = true |- _ => apply andb_true_iff in H; destruct H
  | H : (_ || _) = false |- _ => apply orb_false_iff in H; destruct H
  end.

Lemma append_nil_r (s : string) : s ++ "" = s.
Proof. induction s as [|c s IH]; simpl; [reflexivity | now rewrite IH]. Qed.

Lemma append_assoc (s t u : string) : (s ++ t) ++ u = s ++ t ++ u.
Proof. induction s as [|c s IH]; simpl; [reflexivity | now rewrite IH]. Qed.

Lemma join_cons (sep x : string) (l : list string) :
  l <> [] -> join sep (x :: l) = x ++ sep ++ join sep l.
Proof. destruct l; [congruence | reflexivity]. Qed.

Lemma join_snoc (sep y : string) (l : list string) :
  l <> [] -> join sep (l ++ [y]) = join sep l ++ sep ++ y.
Proof.
  induction l as [|x l IH]; [congruence | intros _].
  destruct l as [|x' l]; [reflexivity |].
  change ((x :: x' :: l) ++ [y])%list with (x :: ((x' :: l) ++ [y]))%list.
  rewrite (join_cons sep x ((x' :: l) ++ [y])) by (simpl; discriminate).
  rewrite IH by discriminate.
  rewrite (join_cons sep x (x' :: l)) by discriminate.
  now rewrite !append_assoc.
Qed.

(** A name, a non-empty list of fields and a last field, written with a
    separator after the name and before the last field, are the fields
    joined by that separator. *)
Lemma joined_fields (sep name y tail : string) (l : list string) :
  l <> [] ->
  name ++ sep ++ join sep l ++ sep ++ y ++ tail
  = join sep (name :: l ++ [y]) ++ tail.
Proof.
  intros N.
  rewrite (join_cons sep name (l ++ [y])) by (destruct l; [congruence | discriminate]).
  rewrite join_snoc by exact N.
  now rewrite !append_assoc.
Qed.

(** The running maximum of [max]: it is an element and an upper bound. *)
Lemma fold_max_spec (l : list Z) (x : Z) :
  let m := fold_left (fun m y => if y >? m then y else m) l x in
  In m (x :: l) /\ x <= m /\ Forall (fun y => y <= m) l.
Proof.
  revert x; induction l as [|y l IH]; intros x; simpl.
  - split; [now left | split; [lia | constructor]].
  - destruct (IH (if y >? x then y else x)) as (Hin & Hle & Hall).
    destruct (y >? x) eqn:E; zbool; simpl in Hin.
    + split; [tauto | split; [lia | constructor; [lia | exact Hall]]].
    + split; [tauto | split; [lia | constructor; [lia | exact Hall]]].
Qed.

Lemma max_spec (l : list Z) :
  l <> [] ->
  exists m, max_ l = Return m /\ In m l /\ Forall (fun y => y <= m) l.
Proof.
  destruct l as [|x l]; [congruence | intros _].
  destruct (fold_max_spec l x) as (Hin & Hle & Hall).
  eexists; split; [reflexivity | split; [exact Hin | constructor; assumption]].
Qed.

Lemma length_pad_scores (scores : list Z) :
  (4 <= List.length (pad_scores scores))%nat.
Proof.
  unfold pad_scores, list_mul, len.
  rewrite List.length_app, repeat_length. lia.
Qed.

Lemma pad_scores_not_nil (scores : list Z) : pad_scores scores <> [].
Proof.
  intros H. pose proof (length_pad_scores scores) as L.
  rewrite H in L. simpl in L. lia.
Qed.

(** *** The loop of [submitScores] *)

Lemma accepted_false_iff (t : string) :
  accepted t = false <->
  t <> "" /\ forall v, int_ t = Return v -> v < 1 \/ 100 < v.
Proof.
  destruct t as [|c t]; simpl.
  - split; [discriminate | intros [H _]; congruence].
  - destruct (int_ (String c t)) as [v|e].
    + split.
      * intros H. split; [discriminate |]. intros v' E. injection E as <-.
        apply andb_false_iff in H. destruct H; zbool; lia.
      * intros [_ H]. destruct (H v eq_refl); apply andb_false_iff;
          [left | right]; apply Z.leb_gt; lia.
    + split; [| reflexivity]. intros _. split; discriminate.
Qed.

Lemma loop_step_accepted (t : string) (i : nat) (inputs : list string)
    (scores : list Z) :
  accepted t = true ->
  submitScores_loop i (t :: inputs) scores
  = submitScores_loop (S i) inputs (scores ++ [score_of t]).
Proof.
  destruct t as [|c t]; [reflexivity |].
  unfold accepted, score_of. cbn [submitScores_loop truthy_str].
  unfold parse_score, bind.
  destruct (int_ (String c t)) as [v|e]; [| discriminate].
  intros H. zbool.
  destruct (v <? 1) eqn:E1; destruct (v >? 100) eqn:E2; zbool;
    try lia; reflexivity.
Qed.

Lemma loop_step_rejected (t : string) (i : nat) (inputs : list string)
    (scores : list Z) :
  accepted t = false ->
  submitScores_loop i (t :: inputs) scores = inl i.
Proof.
  destruct t as [|c t]; [discriminate |].
  unfold accepted. cbn [submitScores_loop truthy_str].
  unfold parse_score, bind.
  destruct (int_ (String c t)) as [v|[e]]; [| reflexivity].
  intros H. apply andb_false_iff in H.
  destruct (v <? 1) eqn:E1; destruct (v >? 100) eqn:E2; try reflexivity.
  destruct H; zbool; lia.
Qed.

(** Accepted texts are passed over one by one, each adding its score. *)
Lemma loop_accepts (inputs : list string) :
  forall (i : nat) (scores : list Z),
    forallb accepted inputs = true ->
    submitScores_loop i inputs scores = inr (scores ++ map score_of inputs)%list.
Proof.
  induction inputs as [|t inputs IH]; intros i scores H.
  - simpl. now rewrite app_nil_r.
  - simpl in H. apply andb_true_iff in H. destruct H as [Ht Hl].
    rewrite loop_step_accepted by exact Ht.
    rewrite IH by exact Hl. now rewrite <- app_assoc.
Qed.

(** The loop ends at the first text that is not accepted, whatever comes
    after it. *)
Lemma loop_rejects (pre : list string) (bad : string) (rest : list string) :
  forall (i : nat) (scores : list Z),
    forallb accepted pre = true ->
    accepted bad = false ->
    submitScores_loop i (pre ++ bad :: rest) scores = inl (i + List.length pre)%nat.
Proof.
  induction pre as [|t pre IH]; intros i scores Hpre Hbad.
  - simpl app. rewrite loop_step_rejected by exact Hbad.
    f_equal. simpl. lia.
  - simpl in Hpre. apply andb_true_iff in Hpre. destruct Hpre as [Ht Hl].
    change ((t :: pre) ++ bad :: rest)%list with (t :: (pre ++ bad :: rest))%list.
    rewrite loop_step_accepted by exact Ht.
    rewrite IH by assumption. f_equal. simpl. lia.
Qed.

(** A list with a text that is not accepted has a first such text. *)
Lemma first_rejected (inputs : list string) :
  forallb accepted inputs = false ->
  exists pre bad rest,
    inputs = (pre ++ bad :: rest)%list /\
    forallb accepted pre = true /\ accepted bad = false.
Proof.
  induction inputs as [|t inputs IH]; [discriminate |].
  simpl. intros H. destruct (accepted t) eqn:Et.
  - destruct (IH H) as (pre & bad & rest & -> & Hpre & Hbad).
    exists (t :: pre), bad, rest. simpl. rewrite Et. auto.
  - exists [], t, inputs. auto.
Qed.

Lemma score_of_range (t : string) :
  accepted t = true -> score_of t = 0 \/ 1 <= score_of t <= 100.
Proof.
  destruct t as [|c t]; [now left |].
  unfold accepted, score_of.
  destruct (int_ (String c t)); [| discriminate].
  intros H. zbool. right. lia.
Qed.

(** The loop ends without an error only on accepted texts. *)
Lemma loop_inr_accepted (inputs : list string) :
  forall (i : nat) (acc scores : list Z),
    submitScores_loop i inputs acc = inr scores ->
    forallb accepted inputs = true.
Proof.
  induction inputs as [|t inputs IH]; intros i acc scores H; [reflexivity |].
  simpl. destruct (accepted t) eqn:Et.
  - rewrite loop_step_accepted in H by exact Et. exact (IH _ _ _ H).
  - rewrite loop_step_rejected in H by exact Et. discriminate.
Qed.

(** The final score of scores that are 0 or between 1 and 100 is between 0
    and 100. *)
Lemma final_score_is_max_in_range (scores : list Z) :
  Forall (fun v => v = 0 \/ 1 <= v <= 100) scores ->
  exists m, final_score_of scores = Return m /\ 0 <= m <= 100.
Proof.
  intros R. destruct scores as [|x l].
  - exists 0. split; [reflexivity | lia].
  - destruct (max_spec (x :: l)) as (m & Em & Hin & _); [discriminate |].
    exists m. split; [exact Em |].
    rewrite Forall_forall in R. destruct (R m Hin); lia.
Qed.

(** *** [int] on decimal texts *)

Lemma digit_not_underscore (c : ascii) :
  Py_ISDIGIT c = true -> (c =? "_")%char = false.
Proof.
  intros H. apply Ascii.eqb_neq. intros ->. discriminate.
Qed.

Lemma digit_not_space (c : ascii) :
  Py_ISDIGIT c = true -> Py_ISSPACE c = false.
Proof.
  unfold Py_ISDIGIT, Py_ISSPACE. intros H.
  apply andb_true_iff in H. destruct H as [H1 H2].
  apply N.leb_le in H1.
  apply orb_false_iff. split.
  - apply andb_false_iff. right. apply N.leb_gt. lia.
  - apply N.eqb_neq. lia.
Qed.

(** The digit loop reads a run of digits to its end. *)
Lemma scan_digits_decimal (s : string) :
  forall (prev : ascii) (acc : Z) (digits : nat),
    all_chars Py_ISDIGIT s = true ->
    (prev =? "_")%char = false ->
    scan_digits prev acc digits s
    = Some (decimal_number_from acc s, (digits + String.length s)%nat, "").
Proof.
  induction s as [|c s IH]; intros prev acc digits Hs Hprev.
  - simpl. rewrite Hprev. now rewrite Nat.add_0_r.
  - simpl in Hs. apply andb_true_iff in Hs. destruct Hs as [Hc Hs].
    cbn [scan_digits decimal_number_from String.length].
    rewrite (digit_not_underscore c Hc). unfold digit_value. rewrite Hc.
    rewrite IH by (auto using digit_not_underscore).
    do 3 f_equal. lia.
Qed.

(** On a text that starts with a digit the parser finds neither white
    space, nor a sign, nor an underscore before the digits. *)
Lemma PyLong_FromString_digit_first (c : ascii) (t : string) :
  Py_ISDIGIT c = true ->
  PyLong_FromString (String c t)
  = match scan_digits zero 0 0 (String c t) with
    | None => NotALiteral
    | Some (v, digits, rest) =>
        if (int_max_str_digits <? digits)%nat then OverLimit digits
        else if (digits =? 0)%nat then NotALiteral
        else match skip_spaces rest with
             | EmptyString => Parsed (1 * v)
             | String _ _ => NotALiteral
             end
    end.
Proof.
  intros H. unfold PyLong_FromString.
  cbn [skip_spaces]. rewrite (digit_not_space c H).
  destruct c as [[] [] [] [] [] [] [] []]; try discriminate H; reflexivity.
Qed.

Lemma ascii_text_unchanged (s : string) :
  all_chars Py_ISDIGIT s = true -> TransformDecimalAndSpaceToASCII s = s.
Proof.
  intros H. unfold TransformDecimalAndSpaceToASCII.
  replace (all_chars (fun ch => (ord ch <? 128)%N) s) with true; [reflexivity |].
  symmetry. induction s as [|c s IH]; [reflexivity |].
  simpl in H |- *. apply andb_true_iff in H. destruct H as [Hc Hs].
  rewrite (IH Hs), andb_true_r.
  unfold Py_ISDIGIT in Hc. apply andb_true_iff in Hc. destruct Hc as [_ Hc].
  apply N.leb_le in Hc. apply N.ltb_lt. lia.
Qed.

(** What the parser finds in a decimal text: its number, unless it has too
    many digits. *)
Lemma PyLong_FromString_decimal_text (s : string) :
  decimal_text s = true ->
  PyLong_FromString s
  = if (int_max_str_digits <? String.length s)%nat
    then OverLimit (String.length s)
    else Parsed (decimal_number s).
Proof.
  unfold decimal_text. intros H. apply andb_true_iff in H. destruct H as [Hne Hs].
  destruct s as [|c t]; [discriminate |].
  pose proof Hs as Hc. cbn [all_chars] in Hc. apply andb_true_iff in Hc.
  destruct Hc as [Hc _].
  rewrite PyLong_FromString_digit_first by exact Hc.
  rewrite scan_digits_decimal by (exact Hs || reflexivity).
  rewrite Nat.add_0_l.
  destruct (int_max_str_digits <? String.length (String c t))%nat;
    [reflexivity |].
  cbn [String.length Nat.eqb skip_spaces].
  unfold decimal_number. f_equal. lia.
Qed.

(** [int] reads a decimal text within the limit as the number it denotes. *)
Lemma int_decimal_text (s : string) :
  decimal_text s = true -> within_digit_limit s ->
  int_ s = Return (decimal_number s).
Proof.
  intros T L. pose proof T as Hs. unfold decimal_text in Hs.
  apply andb_true_iff in Hs. destruct Hs as [_ Hs].
  unfold int_. rewrite ascii_text_unchanged by exact Hs.
  rewrite (PyLong_FromString_decimal_text s T).
  replace (int_max_str_digits <? String.length s)%nat with false;
    [reflexivity |].
  symmetry. apply Nat.ltb_ge. exact L.
Qed.

(** When [int] reads a decimal text, it reads the number it denotes. *)
Lemma int_decimal_text_value (s : string) (v : Z) :
  decimal_text s = true -> int_ s = Return v -> v = decimal_number s.
Proof.
  intros T. pose proof T as Hs. unfold decimal_text in Hs.
  apply andb_true_iff in Hs. destruct Hs as [_ Hs].
  unfold int_. rewrite ascii_text_unchanged by exact Hs.
  rewrite (PyLong_FromString_decimal_text s T).
  destruct (int_max_str_digits <? String.length s)%nat; [discriminate |].
  intros E. now injection E as <-.
Qed.

Lemma decimal_text_isdigit (s : string) :
  decimal_text s = true -> isdigit s = true.
Proof.
  unfold decimal_text, isdigit. intros H.
  apply andb_true_iff in H. destruct H as [Hne Hs].
  destruct s as [|c t]; [discriminate |].
  clear Hne. revert Hs. generalize (String c t). intros s.
  induction s as [|a s IH]; [reflexivity |].
  simpl. intros H. apply andb_true_iff in H. destruct H as [Ha Hs].
  rewrite (IH Hs), andb_true_r.
  unfold Py_UNICODE_ISDIGIT, Py_UNICODE_TODECIMAL. now rewrite Ha.
Qed.

(** *** The comprehension of [modifyCsvFile] *)

Lemma csv_score_value (t : string) :
  (isdigit t = true -> decimal_text t = true /\ within_digit_limit t) ->
  csv_score t = Return (csv_value t).
Proof.
  intros H. unfold csv_score, csv_value.
  destruct (isdigit t) eqn:D.
  - destruct (H eq_refl) as (T & L). rewrite T. exact (int_decimal_text t T L).
  - destruct (decimal_text t) eqn:T; [| reflexivity].
    apply decimal_text_isdigit in T. congruence.
Qed.

Lemma comprehension_csv_score (inputs : list string) :
  Forall (fun t => isdigit t = true ->
                   decimal_text t = true /\ within_digit_limit t) inputs ->
  comprehension csv_score inputs = Return (map csv_value inputs).
Proof.
  induction 1 as [|t inputs Ht _ IH]; [reflexivity |].
  simpl. rewrite (csv_score_value t Ht). simpl. rewrite IH. reflexivity.
Qed.

(** Once the scores are there, [modifyCsvFile] pads them, takes their
    maximum and adds one line to the chosen file. *)
Lemma modifyCsvFile_scores (file_name : string) (self : MainApp)
    (scores : list Z) :
  file_name <> "" ->
  comprehension csv_score (score_inputs self) = Return scores ->
  exists final_score,
    max_ (pad_scores scores) = Return final_score /\
    In final_score (pad_scores scores) /\
    Forall (fun v => v <= final_score) (pad_scores scores) /\
    modifyCsvFile file_name self =
      Return (append_file self file_name
                (csv_line (lineEditStudentName self) (pad_scores scores)
                   final_score)).
Proof.
  intros Hf Hs.
  destruct (max_spec (pad_scores scores) (pad_scores_not_nil scores))
    as (m & Em & Hin & Hall).
  exists m. repeat split; try assumption.
  unfold modifyCsvFile.
  destruct file_name as [|c f]; [congruence |].
  cbn [truthy_str negb]. rewrite Hs. cbn [bind]. rewrite Em. reflexivity.
Qed.

(** *** [int] on the digits that are not decimal *)

(** The digit loop stops at a character that is neither a digit nor an
    underscore and hands back the text from there. *)
Lemma scan_digits_stops (ds : string) (x : ascii) (r : string) :
  forall (prev : ascii) (acc : Z) (digits : nat),
    all_chars Py_ISDIGIT ds = true ->
    (prev =? "_")%char = false ->
    Py_ISDIGIT x = false ->
    (x =? "_")%char = false ->
    scan_digits prev acc digits (ds ++ String x r)
    = Some (decimal_number_from acc ds, (digits + String.length ds)%nat,
            String x r).
Proof.
  induction ds as [|c ds IH]; intros prev acc digits Hds Hprev Hx Hu.
  - cbn [append scan_digits]. unfold digit_value. rewrite Hu, Hx, Hprev.
    simpl. now rewrite Nat.add_0_r.
  - simpl in Hds. apply andb_true_iff in Hds. destruct Hds as [Hc Hds].
    cbn [append scan_digits decimal_number_from String.length].
    rewrite (digit_not_underscore c Hc). unfold digit_value. rewrite Hc.
    rewrite IH by (auto using digit_not_underscore).
    do 3 f_equal. lia.
Qed.

(** A text of digits has a first digit that is not decimal, unless all are
    decimal. *)
Lemma first_not_decimal (s : string) :
  all_chars Py_UNICODE_ISDIGIT s = true ->
  all_chars Py_ISDIGIT s = false ->
  exists ds c rest,
    s = ds ++ String c rest /\
    all_chars Py_ISDIGIT ds = true /\
    Py_ISDIGIT c = false /\ Py_UNICODE_ISDIGIT c = true.
Proof.
  induction s as [|a s IH]; [discriminate |].
  simpl. intros H N. apply andb_true_iff in H. destruct H as [Ha Hs].
  destruct (Py_ISDIGIT a) eqn:Da.
  - simpl in N. destruct (IH Hs N) as (ds & c & rest & -> & Hds & Hc & Hu).
    exists (String a ds), c, rest. simpl. rewrite Da. auto.
  - exists "", a, s. auto.
Qed.

(** Such a digit is not ASCII, no white space and has no decimal value. *)
Lemma not_decimal_digit (c : ascii) :
  Py_ISDIGIT c = false -> Py_UNICODE_ISDIGIT c = true ->
  (ord c <? 127)%N = false /\ (ord c <? 128)%N = false /\
  Py_UNICODE_ISSPACE c = false /\ Py_UNICODE_TODECIMAL c = None.
Proof.
  unfold Py_UNICODE_ISDIGIT, Py_UNICODE_TODECIMAL. intros D. rewrite D.
  intros H.
  destruct c as [[] [] [] [] [] [] [] []]; try discriminate H; repeat split.
Qed.

Lemma transform_chars_cut (ds : string) (c : ascii) (rest : string) :
  all_chars Py_ISDIGIT ds = true ->
  Py_ISDIGIT c = false -> Py_UNICODE_ISDIGIT c = true ->
  TransformDecimalAndSpaceToASCII (ds ++ String c rest) = ds ++ "?".
Proof.
  intros Hds Hc Hu.
  destruct (not_decimal_digit c Hc Hu) as (H127 & H128 & Hsp & Hdec).
  unfold TransformDecimalAndSpaceToASCII.
  replace (all_chars (fun ch => (ord ch <? 128)%N) (ds ++ String c rest))
    with false.
  - induction ds as [|d ds IH].
    + cbn [append transform_chars]. now rewrite H127, Hsp, Hdec.
    + simpl in Hds. apply andb_true_iff in Hds. destruct Hds as [Hd Hds].
      cbn [append transform_chars]. rewrite (IH Hds).
      replace (ord d <? 127)%N with true; [reflexivity |].
      symmetry. unfold Py_ISDIGIT in Hd. apply andb_true_iff in Hd.
      destruct Hd as [_ Hd]. apply N.leb_le in Hd. apply N.ltb_lt. lia.
  - symmetry. clear Hds. induction ds as [|d ds IH].
    + cbn [append all_chars]. now rewrite H128.
    + cbn [append all_chars]. rewrite IH. apply andb_false_r.
Qed.

(** [int] rejects every text [isdigit] accepts that is not a decimal
    text: for its digits beyond the limit, or else as no literal. *)
Lemma int_isdigit_not_decimal (t : string) :
  isdigit t = true -> decimal_text t = false ->
  exists e, int_ t = Raise e.
Proof.
  intros D N. unfold int_.
  assert (H : forall z, PyLong_FromString (TransformDecimalAndSpaceToASCII t)
                        <> Parsed z).
  { unfold isdigit, decimal_text in *.
    destruct t as [|a t]; [discriminate |].
    cbn [truthy_str andb] in N.
    destruct (first_not_decimal _ D N) as (ds & c & rest & E & Hds & Hc & Hu).
    rewrite E, (transform_chars_cut ds c rest Hds Hc Hu).
    destruct ds as [|d ds]; [intros z; vm_compute; discriminate |].
    pose proof Hds as Hd. cbn [all_chars] in Hd. apply andb_true_iff in Hd.
    destruct Hd as [Hd _].
    change (String d ds ++ "?") with (String d (ds ++ "?")).
    rewrite (PyLong_FromString_digit_first d (ds ++ "?") Hd).
    change (String d (ds ++ "?")) with (String d ds ++ "?").
    rewrite scan_digits_stops by (exact Hds || reflexivity).
    intros z.
    destruct (int_max_str_digits <? 0 + String.length (String d ds))%nat;
      [discriminate |].
    destruct (0 + String.length (String d ds) =? 0)%nat; discriminate. }
  destruct (PyLong_FromString (TransformDecimalAndSpaceToASCII t)) as [z| |n].
  - now contradiction (H z).
  - eexists. reflexivity.
  - eexists. reflexivity.
Qed.



(** When the dialog is cancelled nothing happens. *)
Lemma modifyCsvFile_cancelled (self : MainApp) :
  modifyCsvFile "" self = Return self.
Proof. reflexivity. Qed.

(** ** Properties *)

(** C1. [calculateGrade] is defined on every integer and decides by the
    thresholds 90, 80, 70 and 60, from the highest down: A from 90 up
    (so on 90..100 and above), B on 80..89, C on 70..79, D on 60..69 and F
    below 60 (so on 0..59 and on the negative numbers). *)
Theorem calculateGrade_thresholds (s : Z) :
  (90 <= s -> calculateGrade s = "A") /\
  (80 <= s < 90 -> calculateGrade s = "B") /\
  (70 <= s < 80 -> calculateGrade s = "C") /\
  (60 <= s < 70 -> calculateGrade s = "D") /\
  (s < 60 -> calculateGrade s = "F").
Proof.
  unfold calculateGrade.
  repeat split; intros H;
    destruct (s >=? 90) eqn:E90; destruct (s >=? 80) eqn:E80;
    destruct (s >=? 70) eqn:E70; destruct (s >=? 60) eqn:E60;
    zbool; try reflexivity; lia.
Qed.

(** C3. The final score of the submit path is the maximum of the scores
    when there is at least one, and 0 when there is none. *)
Theorem final_score_is_maximum (scores : list Z) :
  exists m,
    final_score_of scores = Return m /\
    (scores = [] -> m = 0) /\
    (scores <> [] -> In m scores /\ Forall (fun x => x <= m) scores).
Proof.
  destruct scores as [|x l].
  - exists 0. split; [reflexivity | split; [reflexivity | congruence]].
  - destruct (max_spec (x :: l)) as (m & Hm & Hin & Hall); [discriminate |].
    exists m. split; [exact Hm | split; [discriminate | auto]].
Qed.

(** C4. Padding never truncates: fewer than 4 scores get exactly
    [4 - length] zeros at the end, which makes 4 scores; 4 scores or more
    are left as they are. So five entries 95, 88, 100, 92, 70 are written as
    five score columns, with final score 100 and grade A. *)
Theorem pad_scores_never_truncates (scores : list Z) :
  ((List.length scores < 4)%nat ->
     pad_scores scores = (scores ++ repeat 0 (4 - List.length scores)%nat)%list /\
     List.length (pad_scores scores) = 4%nat) /\
  ((4 <= List.length scores)%nat -> pad_scores scores = scores) /\
  (exists w,
     submitScores (window "Bo" ["95"; "88"; "100"; "92"; "70"]) = Return w /\
     labelMessage w = "Bo's grade: A" /\
     files w "grades.txt" =
       Some ("Bo" ++ TAB ++ "95" ++ TAB ++ "88" ++ TAB ++ "100" ++ TAB ++ "92"
             ++ TAB ++ "70" ++ TAB ++ "100" ++ NEWLINE)).
Proof.
  unfold pad_scores, list_mul, len.
  split; [| split].
  - intros H.
    replace (Z.to_nat (4 - Z.of_nat (List.length scores)))
      with (4 - List.length scores)%nat by lia.
    split; [reflexivity |].
    rewrite List.length_app, repeat_length. lia.
  - intros H.
    replace (Z.to_nat (4 - Z.of_nat (List.length scores))) with 0%nat by lia.
    simpl. apply app_nil_r.
  - eexists. split; [reflexivity | split; reflexivity].
Qed.

(** C5. The line written to grades.txt is the name, each padded score and
    the final score, joined by single TAB characters, followed by a newline.
    Submitting the single score 50 for Ann writes "Ann\t50\t0\t0\t0\t50\n". *)
Theorem saveResults_tab_line (self : MainApp) (name : string)
    (scores : list Z) (final_score : Z) :
  files (saveResults self name scores final_score) "grades.txt" =
    Some (content (files self "grades.txt")
          ++ join TAB (name :: map str (pad_scores scores) ++ [str final_score])
          ++ NEWLINE) /\
  (exists w,
     submitScores (window "Ann" ["50"]) = Return w /\
     files w "grades.txt" =
       Some ("Ann" ++ TAB ++ "50" ++ TAB ++ "0" ++ TAB ++ "0" ++ TAB ++ "0"
             ++ TAB ++ "50" ++ NEWLINE)).
Proof.
  split.
  - unfold saveResults, append_file. cbn [files].
    rewrite String.eqb_refl. do 2 f_equal.
    apply joined_fields.
    intros E. apply map_eq_nil in E. now apply pad_scores_not_nil in E.
  - eexists. split; reflexivity.
Qed.

(** C2, as amended. The score texts are examined in order: an empty text
    counts as 0 and any other text has to be read by [int] as a number from
    1 to 100. At the first text that is not, whether it is no number or a
    number out of range, the submission stops, whatever the later texts
    are, and the message names the 1-based index of that text; the message
    is the same for both reasons. *)
Theorem submitScores_stops_at_first_invalid (self : MainApp)
    (pre : list string) (bad : string) (rest : list string) :
  score_inputs self = (pre ++ bad :: rest)%list ->
  forallb accepted pre = true ->
  bad <> "" ->
  (forall v, int_ bad = Return v -> v < 1 \/ 100 < v) ->
  submitScores self =
    Return (setText self
              ("Invalid input for Score " ++ str (len pre + 1)
               ++ ". Please enter a number between 1 and 100.")).
Proof.
  intros E Hpre Hne Hbad.
  assert (Hrej : accepted bad = false) by (apply accepted_false_iff; auto).
  unfold submitScores. rewrite E.
  rewrite loop_rejects by assumption.
  reflexivity.
Qed.

Lemma submitScores_stops_at_first_invalid_witness :
  submitScores (window "Ann" ["50"; ""; "101"; "abc"; "7"]) =
    Return (setText (window "Ann" ["50"; ""; "101"; "abc"; "7"])
              "Invalid input for Score 3. Please enter a number between 1 and 100.").
Proof.
  apply (submitScores_stops_at_first_invalid
           (window "Ann" ["50"; ""; "101"; "abc"; "7"])
           ["50"; ""] "101" ["abc"; "7"]).
  - reflexivity.
  - reflexivity.
  - discriminate.
  - intros v E. vm_compute in E. injection E as <-. lia.
Defined.

(** C2 as stated fails: after a text that is no number and after a number
    out of range the message is the same and the files are the same, so no
    reason can be read from the error. *)
Lemma submitScores_error_has_no_reason :
  ~ exists reason_of : string -> (string -> option string) -> rejection_reason,
      (forall w, submitScores (window "Ann" ["50"; ""; "abc"]) = Return w ->
                 reason_of (labelMessage w) (files w) = not_a_number) /\
      (forall w, submitScores (window "Ann" ["50"; ""; "101"]) = Return w ->
                 reason_of (labelMessage w) (files w) = out_of_range).
Proof.
  intros (reason_of & Habc & H101).
  specialize (Habc _ eq_refl). specialize (H101 _ eq_refl).
  cbn in Habc, H101. congruence.
Qed.

(** C6. When some score text is not accepted, the submission is given up as
    a whole: the message names the first such attempt and no file is
    changed. *)
Theorem submitScores_invalid_writes_nothing (self : MainApp) :
  forallb accepted (score_inputs self) = false ->
  exists (i : nat) (w : MainApp),
    (i < List.length (score_inputs self))%nat /\
    accepted (nth i (score_inputs self) "") = false /\
    forallb accepted (firstn i (score_inputs self)) = true /\
    submitScores self = Return w /\
    labelMessage w =
      "Invalid input for Score " ++ str (Z.of_nat i + 1)
      ++ ". Please enter a number between 1 and 100." /\
    files w = files self.
Proof.
  intros H.
  destruct (first_rejected _ H) as (pre & bad & rest & E & Hpre & Hbad).
  exists (List.length pre), (setText self (invalid_input_message (List.length pre))).
  rewrite E. repeat split.
  - rewrite List.length_app. simpl. lia.
  - rewrite app_nth2 by lia. now rewrite Nat.sub_diag.
  - rewrite firstn_app, Nat.sub_diag, firstn_all. simpl. now rewrite app_nil_r.
  - unfold submitScores. rewrite E.
    rewrite loop_rejects by assumption. reflexivity.
Qed.

Lemma submitScores_invalid_writes_nothing_witness :
  exists (i : nat) (w : MainApp),
    (i < 3)%nat /\
    accepted (nth i ["50"; "abc"; "60"] "") = false /\
    forallb accepted (firstn i ["50"; "abc"; "60"]) = true /\
    submitScores (window "Ann" ["50"; "abc"; "60"]) = Return w /\
    labelMessage w =
      "Invalid input for Score " ++ str (Z.of_nat i + 1)
      ++ ". Please enter a number between 1 and 100." /\
    files w = files (window "Ann" ["50"; "abc"; "60"]).
Proof.
  apply (submitScores_invalid_writes_nothing (window "Ann" ["50"; "abc"; "60"])).
  reflexivity.
Defined.

(** C9. When the loop of [submitScores] ends without an error, every score
    it has collected is 0 or a number from 1 to 100, the final score lies
    between 0 and 100, the grade is one of A, B, C, D and F, and these are
    the values shown and written to grades.txt. *)
Theorem submitScores_scores_in_range (self : MainApp) (scores : list Z) :
  submitScores_loop 0 (score_inputs self) [] = inr scores ->
  Forall (fun v => v = 0 \/ 1 <= v <= 100) scores /\
  exists final_score,
    final_score_of scores = Return final_score /\
    0 <= final_score <= 100 /\
    In (calculateGrade final_score) ["A"; "B"; "C"; "D"; "F"] /\
    submitScores self =
      Return (saveResults
                (setText self (lineEditStudentName self ++ "'s grade: "
                               ++ calculateGrade final_score))
                (lineEditStudentName self) scores final_score).
Proof.
  intros H.
  pose proof (loop_inr_accepted _ _ _ _ H) as Hacc.
  rewrite loop_accepts in H by exact Hacc. injection H as <-. simpl app.
  assert (R : Forall (fun v => v = 0 \/ 1 <= v <= 100)
                (map score_of (score_inputs self))).
  { apply Forall_map, Forall_forall. intros t Ht. apply score_of_range.
    rewrite forallb_forall in Hacc. auto. }
  split; [exact R |].
  destruct (final_score_is_max_in_range _ R) as (m & Em & Hm).
  exists m. split; [exact Em | split; [exact Hm | split]].
  - unfold calculateGrade.
    destruct (m >=? 90); [simpl; tauto |].
    destruct (m >=? 80); [simpl; tauto |].
    destruct (m >=? 70); [simpl; tauto |].
    destruct (m >=? 60); simpl; tauto.
  - unfold submitScores.
    rewrite loop_accepts by exact Hacc. simpl app.
    rewrite Em. reflexivity.
Qed.

Lemma submitScores_scores_in_range_witness :
  Forall (fun v => v = 0 \/ 1 <= v <= 100) [50; 0; 100] /\
  exists final_score,
    final_score_of [50; 0; 100] = Return final_score /\
    0 <= final_score <= 100 /\
    In (calculateGrade final_score) ["A"; "B"; "C"; "D"; "F"] /\
    submitScores (window "Ann" ["50"; ""; "100"]) =
      Return (saveResults
                (setText (window "Ann" ["50"; ""; "100"])
                   ("Ann" ++ "'s grade: " ++ calculateGrade final_score))
                "Ann" [50; 0; 100] final_score).
Proof.
  apply (submitScores_scores_in_range (window "Ann" ["50"; ""; "100"]) [50; 0; 100]).
  reflexivity.
Defined.

(** C7. The claim fails on the code. [str.isdigit] accepts the superscript
    two, which [int] does not read: with that text in a score field
    [modifyCsvFile] raises the [ValueError] of [int] and adds no line to the
    chosen file. *)
Theorem modifyCsvFile_superscript_raises :
  isdigit superscript_two = true /\
  int_ superscript_two = Raise (ValueError (InvalidLiteral superscript_two)) /\
  modifyCsvFile "scores.csv" (window "Ann" ["70"; superscript_two])
  = Raise (ValueError (InvalidLiteral superscript_two)).
Proof.
  repeat split.
Qed.

(** C8. The comma path has no range check. With a file chosen, and every
    text [isdigit] accepts a text of the decimal digits 0-9 within the
    digit limit of [int], [modifyCsvFile] returns; each such text counts as
    the number it denotes, whatever its size, each other text as 0; the
    final score is the greatest of these scores after padding, so it is at
    least the number of every text of digits; and the line added to the
    chosen file is the name, the padded scores and the final score, joined
    by commas. The text "999" is written as 999 and becomes the final
    score. *)
Theorem modifyCsvFile_no_range_check (file_name : string) (self : MainApp) :
  file_name <> "" ->
  Forall (fun t => isdigit t = true ->
                   decimal_text t = true /\ within_digit_limit t)
    (score_inputs self) ->
  exists scores final_score,
    scores = pad_scores (map (fun t => if isdigit t then decimal_number t
                                       else 0) (score_inputs self)) /\
    (forall t, In t (score_inputs self) -> isdigit t = true ->
               In (decimal_number t) scores /\ decimal_number t <= final_score) /\
    In final_score scores /\
    Forall (fun v => v <= final_score) scores /\
    modifyCsvFile file_name self =
      Return (append_file self file_name
                (lineEditStudentName self ++ "," ++ join "," (map str scores)
                 ++ "," ++ str final_score ++ NEWLINE)).
Proof.
  intros Hf Hin.
  destruct (modifyCsvFile_scores file_name self _ Hf
              (comprehension_csv_score _ Hin)) as (m & _ & Hm & Hall & E).
  assert (Ev : map csv_value (score_inputs self)
               = map (fun t => if isdigit t then decimal_number t else 0)
                   (score_inputs self)).
  { apply map_ext_in. intros t Ht. rewrite Forall_forall in Hin.
    unfold csv_value. destruct (isdigit t) eqn:D.
    - destruct (Hin t Ht D) as (-> & _). reflexivity.
    - destruct (decimal_text t) eqn:T; [| reflexivity].
      apply decimal_text_isdigit in T. congruence. }
  rewrite Ev in Hm, Hall, E. unfold csv_line in E.
  eexists. exists m.
  split; [reflexivity | split; [| split; [exact Hm | split; [exact Hall | exact E]]]].
  intros t Ht D.
  assert (I : In (decimal_number t)
                (pad_scores (map (fun t => if isdigit t then decimal_number t
                                           else 0) (score_inputs self)))).
  { unfold pad_scores. apply in_or_app. left.
    apply in_map_iff. exists t. now rewrite D. }
  split; [exact I |].
  rewrite Forall_forall in Hall. exact (Hall _ I).
Qed.

Lemma modifyCsvFile_no_range_check_witness :
  exists scores final_score,
    scores = pad_scores (map (fun t => if isdigit t then decimal_number t
                                       else 0) ["999"; "abc"]) /\
    (forall t, In t ["999"; "abc"] -> isdigit t = true ->
               In (decimal_number t) scores /\ decimal_number t <= final_score) /\
    In final_score scores /\
    Forall (fun v => v <= final_score) scores /\
    modifyCsvFile "scores.csv" (window "Ann" ["999"; "abc"]) =
      Return (append_file (window "Ann" ["999"; "abc"]) "scores.csv"
                ("Ann" ++ "," ++ join "," (map str scores)
                 ++ "," ++ str final_score ++ NEWLINE)).
Proof.
  apply (modifyCsvFile_no_range_check "scores.csv" (window "Ann" ["999"; "abc"])).
  - discriminate.
  - constructor; [| constructor; [discriminate | constructor]].
    intros _. split; [reflexivity |].
    unfold within_digit_limit, int_max_str_digits. simpl. lia.
Defined.

(** C10. In [modifyCsvFile] the maximum is taken of the padded scores, which
    are at least 4, so it is defined; with no score field the final score
    is 0. *)
Theorem modifyCsvFile_max_after_padding (file_name : string) (self : MainApp)
    (scores : list Z) :
  file_name <> "" ->
  comprehension csv_score (score_inputs self) = Return scores ->
  (4 <= List.length (pad_scores scores))%nat /\
  exists final_score,
    max_ (pad_scores scores) = Return final_score /\
    modifyCsvFile file_name self =
      Return (append_file self file_name
                (csv_line (lineEditStudentName self) (pad_scores scores)
                   final_score)) /\
    (score_inputs self = [] -> final_score = 0).
Proof.
  intros Hf Hs. split; [apply length_pad_scores |].
  destruct (modifyCsvFile_scores file_name self scores Hf Hs)
    as (m & Em & _ & _ & E).
  exists m. repeat split; try assumption.
  intros Hnil. rewrite Hnil in Hs. simpl in Hs. injection Hs as <-.
  vm_compute in Em. now injection Em as <-.
Qed.

Lemma modifyCsvFile_max_after_padding_witness :
  (4 <= List.length (pad_scores []))%nat /\
  exists final_score,
    max_ (pad_scores []) = Return final_score /\
    modifyCsvFile "scores.csv" (window "Ann" []) =
      Return (append_file (window "Ann" []) "scores.csv"
                (csv_line "Ann" (pad_scores []) final_score)) /\
    (score_inputs (window "Ann" []) = [] -> final_score = 0).
Proof.
  apply (modifyCsvFile_max_after_padding "scores.csv" (window "Ann" []) []).
  - discriminate.
  - reflexivity.
Defined.

(** ** Further properties of the submit path *)

Lemma length_append (s t : string) :
  String.length (s ++ t) = (String.length s + String.length t)%nat.
Proof. induction s as [|c s IH]; simpl; [reflexivity | now rewrite IH]. Qed.

Lemma append_same_nil (s t : string) : s ++ t = s -> t = "".
Proof.
  intros H. apply (f_equal String.length) in H. rewrite length_append in H.
  destruct t; [reflexivity | simpl in H; lia].
Qed.

(** Adding a text that is not empty changes the file. *)
Lemma append_file_changes (self : MainApp) (path text : string) :
  text <> "" -> files (append_file self path text) path <> files self path.
Proof.
  intros Hne. cbn [append_file files]. rewrite String.eqb_refl.
  destruct (files self path) as [old|]; [| discriminate].
  cbn [content]. intros E. injection E as E.
  now apply append_same_nil in E.
Qed.

Lemma append_file_other (self : MainApp) (path text p : string) :
  p <> path -> files (append_file self path text) p = files self p.
Proof.
  intros Hp. cbn [append_file files].
  now replace (p =? path)%string with false by (symmetry; now apply String.eqb_neq).
Qed.

Lemma final_score_of_returns (scores : list Z) :
  exists m, final_score_of scores = Return m.
Proof.
  destruct scores as [|x l]; [now exists 0 |].
  destruct (max_spec (x :: l)) as (m & Em & _); [discriminate |].
  now exists m.
Qed.

(** X1. What a run of [submitScores] that returns leaves behind: the name and
    the score fields as they are, no file changed but grades.txt, and
    grades.txt only with text added at its end. *)
Theorem submitScores_appends_only (self w : MainApp) :
  submitScores self = Return w ->
  lineEditStudentName w = lineEditStudentName self /\
  score_inputs w = score_inputs self /\
  (forall p, p <> "grades.txt" -> files w p = files self p) /\
  exists added,
    content (files w "grades.txt") = content (files self "grades.txt") ++ added.
Proof.
  unfold submitScores.
  destruct (submitScores_loop 0 (score_inputs self) []) as [i|scores].
  - intros E. injection E as <-.
    split; [reflexivity | split; [reflexivity | split; [reflexivity |]]].
    exists "". cbn [setText files]. now rewrite append_nil_r.
  - destruct (final_score_of scores) as [m|e]; cbn [bind]; [| discriminate].
    intros E. injection E as <-.
    split; [reflexivity | split; [reflexivity | split]].
    + intros p Hp. unfold saveResults. now rewrite append_file_other.
    + eexists. unfold saveResults. cbn [append_file files setText].
      rewrite String.eqb_refl. reflexivity.
Qed.

Lemma submitScores_appends_only_witness :
  lineEditStudentName
    (saveResults (setText (window "Ann" ["50"]) "Ann's grade: F") "Ann" [50] 50)
  = lineEditStudentName (window "Ann" ["50"]) /\
  score_inputs
    (saveResults (setText (window "Ann" ["50"]) "Ann's grade: F") "Ann" [50] 50)
  = score_inputs (window "Ann" ["50"]) /\
  (forall p, p <> "grades.txt" ->
     files (saveResults (setText (window "Ann" ["50"]) "Ann's grade: F")
              "Ann" [50] 50) p
     = files (window "Ann" ["50"]) p) /\
  exists added,
    content (files (saveResults (setText (window "Ann" ["50"]) "Ann's grade: F")
                      "Ann" [50] 50) "grades.txt")
    = content (files (window "Ann" ["50"]) "grades.txt") ++ added.
Proof.
  apply (submitScores_appends_only (window "Ann" ["50"])).
  reflexivity.
Defined.

(** The run of [submitScores] on accepted texts. *)
Lemma submitScores_on_accepted (self : MainApp) :
  forallb accepted (score_inputs self) = true ->
  exists final_score,
    final_score_of (map score_of (score_inputs self)) = Return final_score /\
    submitScores self =
      Return (saveResults
                (setText self (lineEditStudentName self ++ "'s grade: "
                               ++ calculateGrade final_score))
                (lineEditStudentName self)
                (map score_of (score_inputs self)) final_score).
Proof.
  intros Hacc.
  destruct (final_score_of_returns (map score_of (score_inputs self)))
    as (m & Em).
  exists m. split; [exact Em |].
  unfold submitScores. rewrite loop_accepts by exact Hacc.
  simpl app. rewrite Em. reflexivity.
Qed.

(** X2. When every score text is accepted, the scores are those of the fields,
    one for each and in their order, the message shows the grade of their
    final score, and the row is written with these scores. *)
Theorem submitScores_writes_accepted_scores (self : MainApp) :
  forallb accepted (score_inputs self) = true ->
  exists final_score,
    final_score_of (map score_of (score_inputs self)) = Return final_score /\
    submitScores self =
      Return (saveResults
                (setText self (lineEditStudentName self ++ "'s grade: "
                               ++ calculateGrade final_score))
                (lineEditStudentName self)
                (map score_of (score_inputs self)) final_score).
Proof.
  intros Hacc.
  destruct (final_score_of_returns (map score_of (score_inputs self)))
    as (m & Em).
  exists m. split; [exact Em |].
  unfold submitScores. rewrite loop_accepts by exact Hacc.
  simpl app. rewrite Em. reflexivity.
Qed.

Lemma submitScores_writes_accepted_scores_witness :
  exists final_score,
    final_score_of (map score_of ["88"; ""; " 91 "]) = Return final_score /\
    submitScores (window "Bo" ["88"; ""; " 91 "]) =
      Return (saveResults
                (setText (window "Bo" ["88"; ""; " 91 "])
                   ("Bo" ++ "'s grade: " ++ calculateGrade final_score))
                "Bo" (map score_of ["88"; ""; " 91 "]) final_score).
Proof.
  apply (submitScores_writes_accepted_scores (window "Bo" ["88"; ""; " 91 "])).
  reflexivity.
Defined.

(** X3. A row is written to grades.txt exactly when every score text is
    accepted. *)
Theorem submitScores_writes_iff_accepted (self w : MainApp) :
  submitScores self = Return w ->
  (files w "grades.txt" <> files self "grades.txt"
   <-> forallb accepted (score_inputs self) = true).
Proof.
  intros H. destruct (forallb accepted (score_inputs self)) eqn:Hacc.
  - split; [reflexivity | intros _].
    destruct (submitScores_on_accepted self Hacc) as (m & _ & E).
    rewrite E in H. injection H as <-.
    unfold saveResults.
    match goal with
    | |- files (append_file ?s ?p ?t) _ <> _ =>
        change (files self "grades.txt") with (files s p);
        apply append_file_changes
    end.
    intros E'. apply (f_equal String.length) in E'.
    rewrite !length_append in E'. simpl in E'. lia.
  - split; [| discriminate]. intros Hch. exfalso. apply Hch.
    destruct (first_rejected _ Hacc) as (pre & bad & rest & E & Hpre & Hbad).
    unfold submitScores in H. rewrite E in H.
    rewrite loop_rejects in H by assumption.
    injection H as <-. reflexivity.
Qed.

Lemma submitScores_writes_iff_accepted_witness :
  files (setText (window "Ann" ["50"; "abc"])
           "Invalid input for Score 2. Please enter a number between 1 and 100.")
    "grades.txt"
  <> files (window "Ann" ["50"; "abc"]) "grades.txt"
  <-> forallb accepted ["50"; "abc"] = true.
Proof.
  apply (submitScores_writes_iff_accepted (window "Ann" ["50"; "abc"])).
  reflexivity.
Defined.

(** ** Further properties of the comma path *)

(** X4. Whenever [modifyCsvFile] returns, the name, the score fields and the
    message are as before, no file but the chosen one is changed, and the
    chosen one only by adding at its end. *)
Theorem modifyCsvFile_appends_only (file_name : string) (self w : MainApp) :
  modifyCsvFile file_name self = Return w ->
  lineEditStudentName w = lineEditStudentName self /\
  score_inputs w = score_inputs self /\
  labelMessage w = labelMessage self /\
  (forall p, p <> file_name -> files w p = files self p) /\
  exists added,
    content (files w file_name) = content (files self file_name) ++ added.
Proof.
  unfold modifyCsvFile.
  destruct file_name as [|c f]; cbn [truthy_str negb].
  - intros H. injection H as <-. repeat split.
    exists "". now rewrite append_nil_r.
  - destruct (comprehension csv_score (score_inputs self)) as [scores|e];
      cbn [bind]; [| discriminate].
    destruct (max_ (pad_scores scores)) as [m|e]; cbn [bind]; [| discriminate].
    intros H. injection H as <-.
    split; [reflexivity | split; [reflexivity | split; [reflexivity | split]]].
    + intros p Hp. now apply append_file_other.
    + eexists. cbn [append_file files]. rewrite String.eqb_refl. reflexivity.
Qed.

Lemma modifyCsvFile_appends_only_witness :
  lineEditStudentName (append_file (window "Ann" ["7"]) "scores.csv"
                         (csv_line "Ann" [7; 0; 0; 0] 7)) = "Ann" /\
  score_inputs (append_file (window "Ann" ["7"]) "scores.csv"
                  (csv_line "Ann" [7; 0; 0; 0] 7)) = ["7"] /\
  labelMessage (append_file (window "Ann" ["7"]) "scores.csv"
                  (csv_line "Ann" [7; 0; 0; 0] 7)) = "" /\
  (forall p, p <> "scores.csv" ->
     files (append_file (window "Ann" ["7"]) "scores.csv"
              (csv_line "Ann" [7; 0; 0; 0] 7)) p
     = files (window "Ann" ["7"]) p) /\
  exists added,
    content (files (append_file (window "Ann" ["7"]) "scores.csv"
                      (csv_line "Ann" [7; 0; 0; 0] 7)) "scores.csv")
    = content (files (window "Ann" ["7"]) "scores.csv") ++ added.
Proof.
  apply (modifyCsvFile_appends_only "scores.csv" (window "Ann" ["7"])).
  reflexivity.
Defined.



(** *** The scores of the comma path *)

Lemma decimal_number_from_nonneg (s : string) :
  forall acc, 0 <= acc -> all_chars Py_ISDIGIT s = true ->
              0 <= decimal_number_from acc s.
Proof.
  induction s as [|c s IH]; intros acc Hacc Hs; [exact Hacc |].
  simpl in Hs. apply andb_true_iff in Hs. destruct Hs as [Hc Hs].
  cbn [decimal_number_from]. apply IH; [| exact Hs].
  unfold Py_ISDIGIT in Hc. apply andb_true_iff in Hc. destruct Hc as [Hc _].
  apply N.leb_le in Hc. lia.
Qed.

Lemma csv_value_nonneg (t : string) : 0 <= csv_value t.
Proof.
  unfold csv_value, decimal_text, decimal_number.
  destruct (truthy_str t); cbn [andb]; [| lia].
  destruct (all_chars Py_ISDIGIT t) eqn:E; [| lia].
  now apply decimal_number_from_nonneg.
Qed.

Lemma csv_score_nonneg (t : string) (v : Z) :
  csv_score t = Return v -> 0 <= v.
Proof.
  unfold csv_score. destruct (isdigit t) eqn:D.
  - destruct (decimal_text t) eqn:T.
    + intros E. rewrite (int_decimal_text_value t v T E).
      generalize (csv_value_nonneg t). unfold csv_value. now rewrite T.
    + destruct (int_isdigit_not_decimal t D T) as (e & ->). discriminate.
  - intros E. injection E as <-. lia.
Qed.

Lemma comprehension_csv_score_nonneg (inputs : list string) :
  forall scores,
    comprehension csv_score inputs = Return scores ->
    Forall (fun v => 0 <= v) scores.
Proof.
  induction inputs as [|t inputs IH]; intros scores.
  - intros E. injection E as <-. constructor.
  - cbn [comprehension]. destruct (csv_score t) as [v|e] eqn:Ev;
      cbn [bind]; [| discriminate].
    destruct (comprehension csv_score inputs) as [vs|e];
      cbn [bind]; [| discriminate].
    intros E. injection E as <-.
    constructor; [exact (csv_score_nonneg t v Ev) | now apply IH].
Qed.

Lemma fold_max_zeros (k : nat) (m : Z) :
  0 <= m -> fold_left (fun m y => if y >? m then y else m) (repeat 0 k) m = m.
Proof.
  intros Hm. induction k as [|k IH]; [reflexivity |].
  cbn [repeat fold_left].
  destruct (0 >? m) eqn:E; zbool; [lia | exact IH].
Qed.

(** Zeros added to scores that are not negative do not change the
    maximum. *)
Lemma max_pad_scores (scores : list Z) :
  Forall (fun v => 0 <= v) scores ->
  max_ (pad_scores scores) = final_score_of scores.
Proof.
  intros H. destruct scores as [|x l]; [reflexivity |].
  unfold pad_scores, list_mul, final_score_of.
  cbn [app max_ truthy_list]. rewrite fold_left_app. f_equal.
  apply fold_max_zeros.
  destruct (fold_max_spec l x) as (_ & Hx & _).
  apply Forall_inv in H. cbv zeta in Hx. lia.
Qed.

(** X6. In [modifyCsvFile] no score is negative, and the final score written is
    the maximum of the scores of the fields, 0 when there is no field: the
    zeros of the padding do not count. *)
Theorem modifyCsvFile_final_score (file_name : string) (self : MainApp)
    (scores : list Z) :
  file_name <> "" ->
  comprehension csv_score (score_inputs self) = Return scores ->
  Forall (fun v => 0 <= v) scores /\
  exists final_score,
    final_score_of scores = Return final_score /\
    0 <= final_score /\
    modifyCsvFile file_name self =
      Return (append_file self file_name
                (csv_line (lineEditStudentName self) (pad_scores scores)
                   final_score)).
Proof.
  intros Hf Hs.
  pose proof (comprehension_csv_score_nonneg _ _ Hs) as Hpos.
  split; [exact Hpos |].
  destruct (modifyCsvFile_scores file_name self scores Hf Hs)
    as (m & Em & Hin & _ & E).
  exists m. rewrite <- (max_pad_scores scores Hpos).
  split; [exact Em | split; [| exact E]].
  unfold pad_scores, list_mul in Hin. apply in_app_or in Hin.
  destruct Hin as [Hin | Hin].
  - rewrite Forall_forall in Hpos. now apply Hpos.
  - apply repeat_spec in Hin. lia.
Qed.

Lemma modifyCsvFile_final_score_witness :
  Forall (fun v => 0 <= v) [30; 0; 250; 0; 41] /\
  exists final_score,
    final_score_of [30; 0; 250; 0; 41] = Return final_score /\
    0 <= final_score /\
    modifyCsvFile "scores.csv" (window "Cy" ["30"; "-9"; "250"; ""; "41"]) =
      Return (append_file (window "Cy" ["30"; "-9"; "250"; ""; "41"])
                "scores.csv"
                (csv_line "Cy" (pad_scores [30; 0; 250; 0; 41]) final_score)).
Proof.
  apply (modifyCsvFile_final_score "scores.csv"
           (window "Cy" ["30"; "-9"; "250"; ""; "41"])).
  - discriminate.
  - reflexivity.
Defined.

(** *** Decimal texts in the two paths *)

Lemma decimal_text_accepted (d : string) :
  decimal_text d = true -> within_digit_limit d ->
  accepted d = ((1 <=? decimal_number d) && (decimal_number d <=? 100))
  /\ score_of d = decimal_number d.
Proof.
  intros T L. unfold accepted, score_of.
  rewrite (int_decimal_text d T L).
  destruct d as [|c d]; [discriminate | split; reflexivity].
Qed.

(** The [try] body on a decimal text within the digit limit. *)
Lemma parse_score_decimal_text (d : string) :
  decimal_text d = true -> within_digit_limit d ->
  parse_score d
  = if (decimal_number d <? 1) || (decimal_number d >? 100)
    then Raise (ValueError (Message "Score must be between 1 and 100"))
    else Return (decimal_number d).
Proof.
  intros T L. unfold parse_score. now rewrite (int_decimal_text d T L).
Qed.

Lemma parse_score_in_bounds (d : string) :
  decimal_text d = true -> within_digit_limit d ->
  1 <= decimal_number d <= 100 ->
  parse_score d = Return (decimal_number d).
Proof.
  intros T L R. rewrite (parse_score_decimal_text d T L).
  destruct (decimal_number d <? 1) eqn:E1;
    destruct (decimal_number d >? 100) eqn:E2; zbool; try lia; reflexivity.
Qed.

Lemma parse_score_out_of_bounds (d : string) :
  decimal_text d = true -> within_digit_limit d ->
  decimal_number d < 1 \/ 100 < decimal_number d ->
  parse_score d = Raise (ValueError (Message "Score must be between 1 and 100")).
Proof.
  intros T L R. rewrite (parse_score_decimal_text d T L).
  destruct (decimal_number d <? 1) eqn:E1;
    destruct (decimal_number d >? 100) eqn:E2; zbool; try lia; reflexivity.
Qed.

(** One turn of the loop on a field that is not empty. *)
Lemma loop_step_filled (i : nat) (t : string) (rest : list string)
    (scores : list Z) :
  t <> "" ->
  submitScores_loop i (t :: rest) scores
  = match parse_score t with
    | Return score => submitScores_loop (S i) rest (scores ++ [score])%list
    | Raise (ValueError _) => inl i
    end.
Proof. intros N. destruct t as [|c t]; [congruence | reflexivity]. Qed.

Lemma decimal_text_not_empty (d : string) : decimal_text d = true -> d <> "".
Proof. intros T ->. discriminate. Qed.

(** X7. The bounds of the submit path on a text of decimal digits within the
    digit limit of [int], in a score field at any place of the form. When
    its number is from 1 to 100, both included, the [try] body gives that
    number and the loop goes on to the next field with the number added to
    the scores. When its number is 0 or above 100, the [try] body raises the
    [ValueError] of the range check and the loop ends in the [except]
    branch at this field: "0" is refused although an empty field counts as
    0. *)
Theorem submit_bounds_on_decimal_text (d : string) (i : nat)
    (rest : list string) (scores : list Z) :
  decimal_text d = true -> within_digit_limit d ->
  (1 <= decimal_number d <= 100 ->
     parse_score d = Return (decimal_number d) /\
     submitScores_loop i (d :: rest) scores
     = submitScores_loop (S i) rest (scores ++ [decimal_number d])%list) /\
  (decimal_number d < 1 \/ 100 < decimal_number d ->
     parse_score d
     = Raise (ValueError (Message "Score must be between 1 and 100")) /\
     submitScores_loop i (d :: rest) scores = inl i).
Proof.
  intros T L. pose proof (decimal_text_not_empty d T) as N.
  split; intros R; rewrite (loop_step_filled i d rest scores N).
  - rewrite (parse_score_in_bounds d T L R). split; reflexivity.
  - rewrite (parse_score_out_of_bounds d T L R). split; reflexivity.
Qed.

Lemma submit_bounds_on_decimal_text_witness :
  (1 <= decimal_number "0" <= 100 ->
     parse_score "0" = Return (decimal_number "0") /\
     submitScores_loop 1 ["0"; "55"] [70]
     = submitScores_loop 2 ["55"] ([70] ++ [decimal_number "0"])%list) /\
  (decimal_number "0" < 1 \/ 100 < decimal_number "0" ->
     parse_score "0"
     = Raise (ValueError (Message "Score must be between 1 and 100")) /\
     submitScores_loop 1 ["0"; "55"] [70] = inl 1%nat).
Proof.
  apply (submit_bounds_on_decimal_text "0" 1 ["55"] [70]).
  - reflexivity.
  - unfold within_digit_limit, int_max_str_digits. simpl. lia.
Defined.

Lemma all_chars_ascii (s : string) :
  all_chars Py_ISDIGIT s = true ->
  all_chars (fun ch => (ord ch <? 128)%N) s = true.
Proof.
  induction s as [|c s IH]; [reflexivity |].
  simpl. intros H. apply andb_true_iff in H. destruct H as [Hc Hs].
  rewrite (IH Hs), andb_true_r.
  unfold Py_ISDIGIT in Hc. apply andb_true_iff in Hc. destruct Hc as [_ Hc].
  apply N.leb_le in Hc. apply N.ltb_lt. lia.
Qed.

(** [int] skips a blank in front of a decimal text. *)
Lemma int_blank_decimal (d : string) :
  decimal_text d = true -> int_ (String " " d) = int_ d.
Proof.
  intros T. pose proof T as T'. unfold decimal_text in T'.
  apply andb_true_iff in T'. destruct T' as [_ T'].
  unfold int_ at 2. rewrite (ascii_text_unchanged d T').
  unfold int_, TransformDecimalAndSpaceToASCII.
  cbn [all_chars]. rewrite (all_chars_ascii d T').
  change ((ord " " <? 128)%N && true) with true. cbv iota.
  change (PyLong_FromString (String " " d)) with (PyLong_FromString d).
  rewrite (PyLong_FromString_decimal_text d T).
  now destruct (int_max_str_digits <? String.length d)%nat.
Qed.

(** X8. A blank typed before a text of decimal digits is nothing to the submit
    path: the [try] body and the loop do with it what they do with the
    digits alone. The comma path takes the text with the blank as 0, and
    the digits alone, within the digit limit of [int], as their number. *)
Theorem leading_blank_differs (d : string) (i : nat) (rest : list string)
    (scores : list Z) :
  decimal_text d = true ->
  parse_score (String " " d) = parse_score d /\
  submitScores_loop i (String " " d :: rest) scores
  = submitScores_loop i (d :: rest) scores /\
  csv_score (String " " d) = Return 0 /\
  (within_digit_limit d -> csv_score d = Return (decimal_number d)).
Proof.
  intros T.
  assert (P : parse_score (String " " d) = parse_score d)
    by (unfold parse_score; now rewrite (int_blank_decimal d T)).
  split; [exact P | split; [| split]].
  - rewrite (loop_step_filled i d rest scores (decimal_text_not_empty d T)).
    rewrite <- P. reflexivity.
  - reflexivity.
  - intros L. unfold csv_score. rewrite (decimal_text_isdigit d T).
    exact (int_decimal_text d T L).
Qed.

Lemma leading_blank_differs_witness :
  parse_score " 85" = parse_score "85" /\
  submitScores_loop 0 [" 85"; "x"] [] = submitScores_loop 0 ["85"; "x"] [] /\
  csv_score " 85" = Return 0 /\
  (within_digit_limit "85" -> csv_score "85" = Return (decimal_number "85")).
Proof. apply (leading_blank_differs "85" 0 ["x"] []). reflexivity. Defined.

Lemma plain_score_text (t : string) :
  t = "" \/ (decimal_text t = true /\ within_digit_limit t /\
             1 <= decimal_number t <= 100) ->
  accepted t = true /\ score_of t = csv_value t /\
  (isdigit t = true -> decimal_text t = true /\ within_digit_limit t).
Proof.
  intros [-> | (T & L & R)].
  - repeat split; discriminate.
  - destruct (decimal_text_accepted t T L) as (Ea & Es).
    rewrite Ea, Es. unfold csv_value. rewrite T.
    split; [| split; [reflexivity | intros _; split; [reflexivity | exact L]]].
    apply andb_true_iff. split; apply Z.leb_le; lia.
Qed.

(** X9. On fields that are empty or hold a text of decimal digits, within the
    digit limit of [int], with a number from 1 to 100, the two paths take
    the same scores and the same final score: the row of grades.txt and the
    row of the chosen file differ in the separator only. *)
Theorem sinks_agree_on_plain_scores (file_name : string) (self : MainApp) :
  file_name <> "" ->
  Forall (fun t => t = "" \/
                   (decimal_text t = true /\ within_digit_limit t /\
                    1 <= decimal_number t <= 100))
    (score_inputs self) ->
  exists final_score,
    submitScores self =
      Return (saveResults
                (setText self (lineEditStudentName self ++ "'s grade: "
                               ++ calculateGrade final_score))
                (lineEditStudentName self)
                (map csv_value (score_inputs self)) final_score) /\
    modifyCsvFile file_name self =
      Return (append_file self file_name
                (csv_line (lineEditStudentName self)
                   (pad_scores (map csv_value (score_inputs self)))
                   final_score)).
Proof.
  intros Hf H.
  assert (Hacc : forallb accepted (score_inputs self) = true).
  { apply forallb_forall. intros t Ht. rewrite Forall_forall in H.
    now apply plain_score_text, H. }
  assert (Hmap : map score_of (score_inputs self)
                 = map csv_value (score_inputs self)).
  { apply map_ext_in. intros t Ht. rewrite Forall_forall in H.
    now apply plain_score_text, H. }
  assert (Hdig : Forall (fun t => isdigit t = true ->
                                  decimal_text t = true /\ within_digit_limit t)
                   (score_inputs self)).
  { apply Forall_forall. intros t Ht. rewrite Forall_forall in H.
    now apply plain_score_text, H. }
  destruct (submitScores_on_accepted self Hacc) as (m & Em & E).
  rewrite Hmap in Em, E.
  exists m. split; [exact E |].
  destruct (modifyCsvFile_scores file_name self _ Hf
              (comprehension_csv_score _ Hdig)) as (m' & Em' & _ & _ & E').
  rewrite max_pad_scores in Em'
    by (apply Forall_forall; intros v Hv; apply in_map_iff in Hv;
        destruct Hv as (t & <- & _); apply csv_value_nonneg).
  rewrite Em in Em'. injection Em' as <-. exact E'.
Qed.

Lemma sinks_agree_on_plain_scores_witness :
  exists final_score,
    submitScores (window "Di" ["64"; ""; "100"]) =
      Return (saveResults
                (setText (window "Di" ["64"; ""; "100"])
                   ("Di" ++ "'s grade: " ++ calculateGrade final_score))
                "Di" (map csv_value ["64"; ""; "100"]) final_score) /\
    modifyCsvFile "scores.csv" (window "Di" ["64"; ""; "100"]) =
      Return (append_file (window "Di" ["64"; ""; "100"]) "scores.csv"
                (csv_line "Di" (pad_scores (map csv_value ["64"; ""; "100"]))
                   final_score)).
Proof.
  apply (sinks_agree_on_plain_scores "scores.csv" (window "Di" ["64"; ""; "100"])).
  - discriminate.
  - constructor; [right | constructor; [left | constructor; [right | constructor]]];
      try reflexivity;
      (split; [reflexivity
              | split; [unfold within_digit_limit, int_max_str_digits; simpl; lia
                       | vm_compute; split; discriminate]]).
Defined.

(** ** The grades in order *)

(** X10. A higher score never gets a lower grade. *)
Theorem calculateGrade_monotone (s1 s2 : Z) :
  s1 <= s2 ->
  (grade_rank (calculateGrade s1) <= grade_rank (calculateGrade s2))%nat.
Proof.
  intros H. unfold calculateGrade.
  destruct (s1 >=? 90) eqn:A1; destruct (s1 >=? 80) eqn:B1;
    destruct (s1 >=? 70) eqn:C1; destruct (s1 >=? 60) eqn:D1;
    destruct (s2 >=? 90) eqn:A2; destruct (s2 >=? 80) eqn:B2;
    destruct (s2 >=? 70) eqn:C2; destruct (s2 >=? 60) eqn:D2;
    zbool; try lia; cbn; lia.
Qed.

Lemma calculateGrade_monotone_witness :
  (grade_rank (calculateGrade 79) <= grade_rank (calculateGrade 80))%nat.
Proof. apply (calculateGrade_monotone 79 80). lia. Defined.

(** ** Written scores typed again *)

Ltac digit_code :=
  match goal with
  | |- context [Z.of_N (ord ?c)] =>
      let v := eval vm_compute in (Z.of_N (ord c)) in
      change (Z.of_N (ord c)) with v
  end.

Lemma decimal_number_from_uint_acc (d : Decimal.uint) :
  forall acc : positive,
    decimal_number_from (Z.pos acc) (NilEmpty.string_of_uint d)
    = Z.pos (Pos.of_uint_acc d acc).
Proof.
  induction d as [|d IH|d IH|d IH|d IH|d IH|d IH|d IH|d IH|d IH|d IH];
    intros acc;
    cbn [NilEmpty.string_of_uint decimal_number_from Pos.of_uint_acc];
    [reflexivity | rewrite <- IH; f_equal; digit_code; lia ..].
Qed.

Lemma decimal_number_from_uint (d : Decimal.uint) :
  decimal_number_from 0 (NilEmpty.string_of_uint d) = Z.of_N (Pos.of_uint d).
Proof.
  induction d as [|d IH|d IH|d IH|d IH|d IH|d IH|d IH|d IH|d IH|d IH];
    cbn [NilEmpty.string_of_uint decimal_number_from Pos.of_uint];
    [reflexivity | exact IH | digit_code; apply decimal_number_from_uint_acc ..].
Qed.

Lemma string_of_uint_digits (d : Decimal.uint) :
  all_chars Py_ISDIGIT (NilEmpty.string_of_uint d) = true.
Proof.
  induction d as [|d IH|d IH|d IH|d IH|d IH|d IH|d IH|d IH|d IH|d IH];
    cbn [NilEmpty.string_of_uint all_chars]; [reflexivity | exact IH ..].
Qed.

(** [str] writes a number that is not negative as a decimal text that
    denotes it. *)
Lemma str_decimal (v : Z) :
  0 <= v -> decimal_text (str v) = true /\ decimal_number (str v) = v.
Proof.
  intros Hv. destruct v as [|p|p]; [split; reflexivity | | lia].
  unfold str. cbn [Z.to_int NilZero.string_of_int].
  pose proof (Unsigned.to_uint_nonnil p) as Hnil.
  assert (E : NilZero.string_of_uint (Pos.to_uint p)
              = NilEmpty.string_of_uint (Pos.to_uint p))
    by (destruct (Pos.to_uint p); [congruence | reflexivity ..]).
  rewrite E. split.
  - unfold decimal_text. rewrite string_of_uint_digits, andb_true_r.
    destruct (Pos.to_uint p); [congruence | reflexivity ..].
  - unfold decimal_number. rewrite decimal_number_from_uint.
    now rewrite Unsigned.of_to.
Qed.

(** X11. A score as the rows show it, within the digit limit of [int], typed
    into a score field again. The comma path takes it as it is. In the
    submit path, when it is from 1 to 100 the [try] body gives it back and
    the loop goes on with it added to the scores; when it is 0 or above 100
    the [try] body raises the [ValueError] of the range check and the loop
    ends in the [except] branch at this field, so the "0" written for an
    empty field is refused. *)
Theorem written_score_typed_again (v : Z) (i : nat) (rest : list string)
    (scores : list Z) :
  0 <= v -> within_digit_limit (str v) ->
  csv_score (str v) = Return v /\
  (1 <= v <= 100 ->
     parse_score (str v) = Return v /\
     submitScores_loop i (str v :: rest) scores
     = submitScores_loop (S i) rest (scores ++ [v])%list) /\
  (v = 0 \/ 100 < v ->
     parse_score (str v)
     = Raise (ValueError (Message "Score must be between 1 and 100")) /\
     submitScores_loop i (str v :: rest) scores = inl i).
Proof.
  intros Hv L. destruct (str_decimal v Hv) as (T & N).
  pose proof (decimal_text_not_empty _ T) as Ne.
  split; [| split]; [| intros R | intros R];
    try rewrite (loop_step_filled i (str v) rest scores Ne).
  - unfold csv_score. rewrite (decimal_text_isdigit _ T).
    rewrite (int_decimal_text _ T L). now rewrite N.
  - rewrite (parse_score_in_bounds _ T L) by (rewrite N; exact R).
    rewrite N. split; reflexivity.
  - rewrite (parse_score_out_of_bounds _ T L) by (rewrite N; lia).
    split; reflexivity.
Qed.

Lemma written_score_typed_again_witness :
  csv_score (str 0) = Return 0 /\
  (1 <= 0 <= 100 ->
     parse_score (str 0) = Return 0 /\
     submitScores_loop 2 [str 0; "9"] [5; 6]
     = submitScores_loop 3 ["9"] ([5; 6] ++ [0])%list) /\
  (0 = 0 \/ 100 < 0 ->
     parse_score (str 0)
     = Raise (ValueError (Message "Score must be between 1 and 100")) /\
     submitScores_loop 2 [str 0; "9"] [5; 6] = inl 2%nat).
Proof.
  apply (written_score_typed_again 0 2 ["9"] [5; 6]).
  - lia.
  - unfold within_digit_limit, int_max_str_digits. simpl. lia.
Defined.

(** ** Blank forms *)

Lemma blank_fields_accepted (n : nat) :
  forallb accepted (repeat "" n) = true /\
  map score_of (repeat "" n) = repeat 0 n.
Proof.
  induction n as [|n (IH1 & IH2)]; [split; reflexivity |].
  cbn [repeat forallb map]. rewrite IH1, IH2. split; reflexivity.
Qed.

Lemma final_score_of_zeros (n : nat) : final_score_of (repeat 0 n) = Return 0.
Proof.
  destruct n as [|n]; [reflexivity |].
  cbn [repeat final_score_of truthy_list max_]. f_equal.
  apply fold_max_zeros. lia.
Qed.

(** Submitting a form whose score fields are all empty. *)
Lemma submitScores_blank (self : MainApp) (n : nat) :
  score_inputs self = repeat "" n ->
  submitScores self =
    Return (saveResults
              (setText self (lineEditStudentName self ++ "'s grade: F"))
              (lineEditStudentName self) (repeat 0 n) 0).
Proof.
  intros E. destruct (blank_fields_accepted n) as (Hacc & Hmap).
  unfold submitScores. rewrite E, loop_accepts by exact Hacc.
  simpl app. rewrite Hmap, final_score_of_zeros. reflexivity.
Qed.

Lemma map_const_repeat {A B : Type} (b : B) (l : list A) :
  map (fun _ => b) l = repeat b (List.length l).
Proof. induction l as [|a l IH]; [reflexivity | simpl; now rewrite IH]. Qed.

Lemma length_pad_scores_max (scores : list Z) :
  List.length (pad_scores scores) = Nat.max 4 (List.length scores).
Proof.
  unfold pad_scores, list_mul, len. rewrite List.length_app, repeat_length. lia.
Qed.

(** X12. [clearFields] keeps the score fields and the files; a submission right
    after it is not refused: it shows the grade F for an empty name and
    writes a row with the empty name, a 0 for each score field, at least
    four, and the final score 0. *)
Theorem clearFields_then_submit (self : MainApp) :
  List.length (score_inputs (clearFields self)) = List.length (score_inputs self) /\
  files (clearFields self) = files self /\
  submitScores (clearFields self) =
    Return (saveResults (setText (clearFields self) "'s grade: F") ""
              (repeat 0 (List.length (score_inputs self))) 0) /\
  List.length (pad_scores (repeat 0 (List.length (score_inputs self))))
  = Nat.max 4 (List.length (score_inputs self)).
Proof.
  split; [apply length_map | split; [reflexivity | split]].
  - apply (submitScores_blank (clearFields self)).
    apply map_const_repeat.
  - now rewrite length_pad_scores_max, repeat_length.
Qed.

(** X13. [addInputBoxes] drops what the score fields held: after it there are
    as many empty fields as the spin box says, none when the value is not
    positive, and a submission writes a row of zeros, four at least, with
    the grade F. *)
Theorem addInputBoxes_then_submit (attempts : Z) (self : MainApp) :
  score_inputs (addInputBoxes attempts self) = repeat "" (Z.to_nat attempts) /\
  submitScores (addInputBoxes attempts self) =
    Return (saveResults
              (setText (addInputBoxes attempts self)
                 (lineEditStudentName self ++ "'s grade: F"))
              (lineEditStudentName self) (repeat 0 (Z.to_nat attempts)) 0) /\
  List.length (pad_scores (repeat 0 (Z.to_nat attempts)))
  = Nat.max 4 (Z.to_nat attempts).
Proof.
  assert (E : score_inputs (addInputBoxes attempts self)
              = repeat "" (Z.to_nat attempts)).
  { cbn [addInputBoxes score_inputs]. rewrite map_const_repeat.
    now rewrite length_seq. }
  split; [exact E | split].
  - exact (submitScores_blank (addInputBoxes attempts self) _ E).
  - now rewrite length_pad_scores_max, repeat_length.
Qed.

(** ** Submitting twice *)

(** X14. A second submission of the same form does not replace the row of the
    first: grades.txt then ends with the same row twice. *)
Theorem submitScores_twice (self : MainApp) :
  forallb accepted (score_inputs self) = true ->
  exists (w1 w2 : MainApp) (row : string),
    submitScores self = Return w1 /\
    submitScores w1 = Return w2 /\
    row <> "" /\
    content (files w1 "grades.txt") = content (files self "grades.txt") ++ row /\
    content (files w2 "grades.txt")
    = content (files self "grades.txt") ++ row ++ row.
Proof.
  intros Hacc.
  destruct (submitScores_on_accepted self Hacc) as (m & Em & E1).
  set (name := lineEditStudentName self) in *.
  set (scores := map score_of (score_inputs self)) in *.
  set (w1 := saveResults (setText self (name ++ "'s grade: " ++ calculateGrade m))
               name scores m) in *.
  assert (Hacc1 : forallb accepted (score_inputs w1) = true) by exact Hacc.
  destruct (submitScores_on_accepted w1 Hacc1) as (m' & Em' & E2).
  change (score_inputs w1) with (score_inputs self) in Em', E2.
  change (lineEditStudentName w1) with name in E2.
  fold scores in Em', E2. rewrite Em in Em'. injection Em' as <-.
  exists w1. eexists. eexists.
  split; [exact E1 | split; [exact E2 | split; [| split]]].
  2: { unfold w1, saveResults. cbn [append_file files setText].
       rewrite String.eqb_refl. reflexivity. }
  - intros E. apply (f_equal String.length) in E.
    rewrite !length_append in E. simpl in E. lia.
  - unfold w1, saveResults. cbn [append_file files setText].
    rewrite !String.eqb_refl. cbn [content]. now rewrite append_assoc.
Qed.

Lemma submitScores_twice_witness :
  exists (w1 w2 : MainApp) (row : string),
    submitScores (window "Ed" ["72"]) = Return w1 /\
    submitScores w1 = Return w2 /\
    row <> "" /\
    content (files w1 "grades.txt")
    = content (files (window "Ed" ["72"]) "grades.txt") ++ row /\
    content (files w2 "grades.txt")
    = content (files (window "Ed" ["72"]) "grades.txt") ++ row ++ row.
Proof.
  apply (submitScores_twice (window "Ed" ["72"])). reflexivity.
Defined.
